(** * gateway/metrics/add_metrics.go: the metrics decorator of the function list

    A shallow embedding of [parseMetricValue], [mixIn], [writeResponse] and
    [AddMetricsHandler], and the properties of the merge and of the
    decorator's failure policy.

    float64 is Rocq's primitive binary64 [float]; a Go [error] is observed
    through its [Error()] text; the Go standard library and the metrics
    backend are interfaces (type classes) the code is parameterised by. *)

From Stdlib Require Import PrimFloat ZArith Ascii String List DecimalString.
From stdpp Require Import base option list strings gmap.
Import ListNotations.

Open Scope string_scope.

(** ** Values and records *)

(** A Go [error] value that is not nil, as the text [Error()] returns. *)
Definition error : Type := string.

(** What encoding/json stores in an [interface{}]: nil, bool, float64,
    string, []interface{} and map[string]interface{}. *)
#[local] Unset Elimination Schemes.
Inductive any : Type :=
| AnyNil
| AnyBool (b : bool)
| AnyFloat64 (f : float)
| AnyString (s : string)
| AnySlice (l : list any)
| AnyMap (m : list (string * any)).
#[local] Set Elimination Schemes.

(** Modelled from the spec: [requests.Function] is declared outside
    add_metrics.go.  The record has the name, the four float64 metric fields
    this file assigns, and whatever else the listing carries ([rest]). *)
Record Function {Other : Type} : Type := mkFunction {
  Name : string;
  InvocationCount : float;
  InvocationCount2XX : float;
  InvocationCountNon2XX : float;
  AverageResponseTime : float;
  rest : Other
}.
Arguments Function : clear implicits.
Arguments mkFunction {Other}.

(** Modelled from the spec: [VectorQueryResponse] is declared outside
    add_metrics.go.  A response is [Data.Result], a list of samples; a sample
    has its labels ([Metric.FunctionName] among them) and the value tuple
    (timestamp, value), so that [v.Value[1]] is the second component. *)
Record Metric : Type := mkMetric {
  FunctionName : string;
  labels : list (string * string)
}.

Record Sample : Type := mkSample {
  SampleMetric : Metric;
  Value : any * any
}.

Record VectorQueryResponse : Type := mkVectorQueryResponse {
  DataResult : list Sample
}.

(** ** Outcomes: a call returns or panics *)

Inductive outcome (A : Type) : Type :=
| Done (a : A)
| Panic (msg : string).
Arguments Done {A} a.
Arguments Panic {A} msg.

Definition bind {A B : Type} (m : outcome A) (k : A -> outcome B) : outcome B :=
  match m with
  | Done a => k a
  | Panic msg => Panic msg
  end.

Notation "x <~ m ;; k" := (bind m (fun x => k))
  (at level 100, m at next level, right associativity).

(** [for _, x := range l { body }] over a state. *)
Fixpoint forEach {A S : Type} (body : S -> A -> outcome S) (l : list A) (s : S)
  : outcome S :=
  match l with
  | [] => Done s
  | x :: l' => s' <~ body s x ;; forEach body l' s'
  end.

(** ** The standard library the file calls *)

(** [strconv.ParseFloat(s, 64)]: the value and the error (nil: [None]). *)
Class Strconv : Type := {
  ParseFloat : string -> float * option error
}.

(** [url.QueryEscape]. *)
Class NetURL : Type := {
  QueryEscape : string -> string
}.

(** [json.Unmarshal] into a [[]requests.Function] and [json.Marshal] of one. *)
Class EncodingJSON (Other : Type) : Type := {
  Unmarshal : string -> list (Function Other) * option error;
  Marshal : list (Function Other) -> string * option error
}.

(** [fmt.Sprintf] of one [%d] verb. *)
Definition formatInt (z : Z) : string := NilZero.string_of_int (Z.to_int z).

(** ** parseMetricValue *)

Section Parse.
Context `{Strconv}.

(** The result is the pair of named results [(parsedValue, err)] and the
    lines handed to [log.Printf].  The switch has one case; any other dynamic
    type leaves both named results at their zero values. *)
Definition parseMetricValue (metricValue : any)
  : (float * option error) * list string :=
  match metricValue with
  | AnyString s =>
    let '(parsedValue, err) := ParseFloat s in
    match err with
    | Some e => ((parsedValue, err), ["Unable to convert value for metric: " ++ e])
    | None => ((parsedValue, err), [])
    end
  | _ => ((0%float, None), [])
  end.

End Parse.

(** ** mixIn *)

Section MixIn.
Context {Other : Type} `{Strconv}.

(** What [mixIn] reaches through its five pointers, and the log.
    [functions = None] is the nil pointer; the four responses are
    dereferenced without a check and are taken as the values pointed to. *)
Record Store : Type := mkStore {
  functions : option (list (Function Other));
  invocationCountMetrics : VectorQueryResponse;
  invocationCount2XXMetrics : VectorQueryResponse;
  invocationCountNon2XXMetrics : VectorQueryResponse;
  averageResponseTimeMetrics : VectorQueryResponse;
  logged : list string
}.

Definition setFunctions (fs : list (Function Other)) (st : Store) : Store :=
  mkStore (Some fs) (invocationCountMetrics st) (invocationCount2XXMetrics st)
          (invocationCountNon2XXMetrics st) (averageResponseTimeMetrics st)
          (logged st).

Definition logPrint (lines : list string) (st : Store) : Store :=
  mkStore (functions st) (invocationCountMetrics st) (invocationCount2XXMetrics st)
          (invocationCountNon2XXMetrics st) (averageResponseTimeMetrics st)
          (logged st ++ lines).

(** The dereference of the [functions] pointer. *)
Definition deref (st : Store) : outcome (list (Function Other)) :=
  match functions st with
  | Some fs => Done fs
  | None => Panic "invalid memory address or nil pointer dereference"
  end.

(** An assignment to a field of element [i] of the slice [functions]
    points to, with the bounds check of the index expression. *)
Definition updateAt (i : nat) (g : Function Other -> Function Other) (st : Store)
  : outcome Store :=
  fs <~ deref st ;;
  match fs !! i with
  | Some f => Done (setFunctions (<[i := g f]> fs) st)
  | None => Panic "index out of range"
  end.

(** The assignments [.F = x] to the four fields. *)
Definition setInvocationCount (x : float) (f : Function Other) : Function Other :=
  mkFunction (Name f) x (InvocationCount2XX f) (InvocationCountNon2XX f)
             (AverageResponseTime f) (rest f).
Definition setInvocationCount2XX (x : float) (f : Function Other) : Function Other :=
  mkFunction (Name f) (InvocationCount f) x (InvocationCountNon2XX f)
             (AverageResponseTime f) (rest f).
Definition setInvocationCountNon2XX (x : float) (f : Function Other) : Function Other :=
  mkFunction (Name f) (InvocationCount f) (InvocationCount2XX f) x
             (AverageResponseTime f) (rest f).
Definition setAverageResponseTime (x : float) (f : Function Other) : Function Other :=
  mkFunction (Name f) (InvocationCount f) (InvocationCount2XX f)
             (InvocationCountNon2XX f) x (rest f).

(** The assignments [.F += x]. *)
Definition addInvocationCount (x : float) (f : Function Other) : Function Other :=
  setInvocationCount (PrimFloat.add (InvocationCount f) x) f.
Definition addInvocationCount2XX (x : float) (f : Function Other) : Function Other :=
  setInvocationCount2XX (PrimFloat.add (InvocationCount2XX f) x) f.
Definition addInvocationCountNon2XX (x : float) (f : Function Other) : Function Other :=
  setInvocationCountNon2XX (PrimFloat.add (InvocationCountNon2XX f) x) f.
Definition addAverageResponseTime (x : float) (f : Function Other) : Function Other :=
  setAverageResponseTime (PrimFloat.add (AverageResponseTime f) x) f.

(** The body of the first loop: the four fields of element [i] are zeroed. *)
Definition resetAt (st : Store) (i : nat) : outcome Store :=
  st <~ updateAt i (setInvocationCount 0%float) st ;;
  st <~ updateAt i (setInvocationCount2XX 0%float) st ;;
  st <~ updateAt i (setInvocationCountNon2XX 0%float) st ;;
  updateAt i (setAverageResponseTime 0%float) st.

(** The body of each of the four inner loops, for the field [add] assigns:
    a sample whose label equals [name] is parsed and, when [err == nil],
    added to element [i].  The third and the fourth loop test the label
    twice, one test inside the other, which is the one test. *)
Definition accumulate (add : float -> Function Other -> Function Other)
  (i : nat) (name : string) (st : Store) (v : Sample) : outcome Store :=
  if String.eqb (FunctionName (SampleMetric v)) name then
    let '((parsedValue, err), lines) := parseMetricValue (snd (Value v)) in
    let st := logPrint lines st in
    match err with
    | None => updateAt i (add parsedValue) st
    | Some _ => Done st
    end
  else Done st.

(** The body of the second loop, which ranges over the slice with [i] and
    [function]:
    [function] is a copy of element [i] taken when the iteration starts; each
    inner range expression is evaluated when its loop starts. *)
Definition enrichAt (st : Store) (i : nat) : outcome Store :=
  fs <~ deref st ;;
  match fs !! i with
  | None => Panic "index out of range"
  | Some function =>
    st <~ forEach (accumulate addInvocationCount i (Name function))
                  (DataResult (invocationCountMetrics st)) st ;;
    st <~ forEach (accumulate addInvocationCount2XX i (Name function))
                  (DataResult (invocationCount2XXMetrics st)) st ;;
    st <~ forEach (accumulate addInvocationCountNon2XX i (Name function))
                  (DataResult (invocationCountNon2XXMetrics st)) st ;;
    forEach (accumulate addAverageResponseTime i (Name function))
            (DataResult (averageResponseTimeMetrics st)) st
  end.

(** A range over the slice visits the indices of the slice as it is when the
    loop starts. *)
Definition rangeIndices (st : Store) : outcome (list nat) :=
  fs <~ deref st ;; Done (seq 0 (length fs)).

Definition mixIn (st : Store) : outcome Store :=
  match functions st with
  | None => Done st
  | Some _ =>
    indices <~ rangeIndices st ;;
    st <~ forEach resetAt indices st ;;
    indices <~ rangeIndices st ;;
    forEach enrichAt indices st
  end.

End MixIn.
Arguments Store : clear implicits.

(** ** The response writer, the recorder and the backend *)

(** An [http.ResponseWriter] that records what it is sent: [Header().Set]
    stores a field, the first [WriteHeader] fixes the status, and [Write]
    appends to the body, fixing the status at 200 when none was sent. *)
Record ResponseWriter : Type := mkResponseWriter {
  header : gmap string string;
  status : option Z;
  written : string
}.

Definition NewResponseWriter : ResponseWriter := mkResponseWriter ∅ None "".

Definition HeaderSet (key value : string) (w : ResponseWriter) : ResponseWriter :=
  mkResponseWriter (<[key := value]> (header w)) (status w) (written w).

Definition WriteHeader (statusCode : Z) (w : ResponseWriter) : ResponseWriter :=
  match status w with
  | Some _ => w
  | None => mkResponseWriter (header w) (Some statusCode) (written w)
  end.

Definition Write (b : string) (w : ResponseWriter) : ResponseWriter :=
  let w := WriteHeader 200 w in
  mkResponseWriter (header w) (status w) (written w ++ b).

Definition StatusOK : Z := 200.
Definition StatusInternalServerError : Z := 500.

(** [httptest.ResponseRecorder]: the status code, 200 until the handler sends
    another, and the bytes written. *)
Record ResponseRecorder : Type := mkResponseRecorder {
  Code : Z;
  RecorderBody : string
}.

Definition NewRecorder : ResponseRecorder := mkResponseRecorder 200 "".

(** [http.Response], as far as the decorator reads it. *)
Record Response : Type := mkResponse {
  StatusCode : Z;
  Body : option string
}.

(** [recorder.Result()]: the body of the response is never nil. *)
Definition Result (recorder : ResponseRecorder) : Response :=
  mkResponse (Code recorder) (Some (RecorderBody recorder)).

(** [ioutil.ReadAll] of a recorded body. *)
Definition ReadAll (body : string) : string := body.

(** The interface [PrometheusQueryFetcher]: [Fetch] answers with a response
    or with an error, and may change the state of the backend it talks to. *)
Class PrometheusQueryFetcher : Type := {
  Backend : Type;
  Fetch : string -> Backend -> (error + VectorQueryResponse) * Backend
}.

(** The double quote character of the query expressions. *)
Definition dq : string := String "034"%char EmptyString.

Definition invocationTotalQuery : string :=
  "sum(gateway_function_invocation_total{function_name=~" ++ dq ++ ".*" ++ dq
  ++ ", code=~" ++ dq ++ ".*" ++ dq ++ "}) by (function_name, code)".
Definition invocation2XXQuery : string :=
  "sum(gateway_function_invocation_total {function_name=~" ++ dq ++ ".*" ++ dq
  ++ ", code=~" ++ dq ++ "2.*" ++ dq ++ "}) by (function_name)".
Definition invocationNon2XXQuery : string :=
  "sum(gateway_function_invocation_total {function_name=~" ++ dq ++ ".*" ++ dq
  ++ ", code!~" ++ dq ++ "2.*" ++ dq ++ "}) by (function_name)".
Definition averageResponseTimeQuery : string :=
  "avg(gateway_functions_seconds_sum/gateway_functions_seconds_count {function_name=~"
  ++ dq ++ ".*" ++ dq ++ "}) by (function_name)".

(** ** AddMetricsHandler *)

Section Handler.
Context {Other Request : Type}.
Context `{Strconv} `{NetURL} `{EncodingJSON Other}.
Context {prometheusQuery : PrometheusQueryFetcher}.

(** What one request can change: the response writer [w], the log, the
    backend, and the calls of [Fetch] made so far with their answers. *)
Record World : Type := mkWorld {
  w : ResponseWriter;
  logOut : list string;
  fetched : list (string * (error + VectorQueryResponse));
  backend : Backend
}.

Definition onWriter (g : ResponseWriter -> ResponseWriter) (W : World) : World :=
  mkWorld (g (w W)) (logOut W) (fetched W) (backend W).

Definition logPrintf (line : string) (W : World) : World :=
  mkWorld (w W) (logOut W ++ [line]) (fetched W) (backend W).

Definition setLog (lines : list string) (W : World) : World :=
  mkWorld (w W) lines (fetched W) (backend W).

Definition fetch (expr : string) (W : World)
  : (error + VectorQueryResponse) * World :=
  let '(answer, b) := Fetch expr (backend W) in
  (answer, mkWorld (w W) (logOut W) (fetched W ++ [(expr, answer)]) b).

Definition writeResponse (body : string) (W : World) : World :=
  let W := onWriter (HeaderSet "Content-Type" "application/json") W in
  let W := onWriter (WriteHeader StatusOK) W in
  onWriter (Write body) W.

(** The wrapped handler, run on a recorder. *)
Definition HandlerFunc : Type := ResponseRecorder -> Request -> ResponseRecorder.

Definition AddMetricsHandler (handler : HandlerFunc) (W : World) (r : Request)
  : outcome World :=
  let recorder := handler NewRecorder r in
  let upstreamCall := Result recorder in
  match Body upstreamCall with
  | None => Done (logPrintf "Upstream call had empty body." W)
  | Some body =>
  if negb (Code recorder =? StatusOK)%Z then
    let W := onWriter (HeaderSet "Content-Type" "text/plain") W in
    let W := onWriter (WriteHeader StatusInternalServerError) W in
    Done (onWriter (Write ("Error pulling metrics from provider/backend. Status code: "
                           ++ formatInt (Code recorder))) W)
  else
  let upstreamBody := ReadAll body in
  let '(functions, err) := Unmarshal upstreamBody in
  match err with
  | Some e =>
    let W := logPrintf ("Metrics upstream error: " ++ e) W in
    let W := onWriter (HeaderSet "Content-Type" "text/plain") W in
    let W := onWriter (WriteHeader StatusInternalServerError) W in
    Done (onWriter (Write "Error parsing metrics from upstream provider/backend.") W)
  | None =>
  let expr := QueryEscape invocationTotalQuery in
  let '(answer, W) := fetch expr W in
  match answer with
  | inl fetchErr =>
    let W := logPrintf ("Error querying Prometheus API: " ++ fetchErr) W in
    Done (writeResponse upstreamBody W)
  | inr results =>
  let invocationCount2XXExpr := QueryEscape invocation2XXQuery in
  let '(answer, W) := fetch invocationCount2XXExpr W in
  match answer with
  | inl fetchErr =>
    let W := logPrintf ("Error querying Prometheus API: " ++ fetchErr) W in
    Done (writeResponse upstreamBody W)
  | inr invocationCount2XXResults =>
  let invocationCountNon2XXExpr := QueryEscape invocationNon2XXQuery in
  let '(answer, W) := fetch invocationCountNon2XXExpr W in
  match answer with
  | inl fetchErr =>
    let W := logPrintf ("Error querying Prometheus API: " ++ fetchErr) W in
    Done (writeResponse upstreamBody W)
  | inr invocationCountNon2XXResults =>
  let averageResponseTimeExpr := QueryEscape averageResponseTimeQuery in
  let '(answer, W) := fetch averageResponseTimeExpr W in
  match answer with
  | inl fetchErr =>
    let W := logPrintf ("Error querying Prometheus API: " ++ fetchErr) W in
    Done (writeResponse upstreamBody W)
  | inr averageResponseTimeResults =>
  st <~ mixIn (mkStore (Some functions) results invocationCount2XXResults
                       invocationCountNon2XXResults averageResponseTimeResults
                       (logOut W)) ;;
  functions <~ deref st ;;
  let W := setLog (logged st) W in
  let '(bytesOut, marshalErr) := Marshal functions in
  match marshalErr with
  | Some e => Done (logPrintf e W)
  | None =>
    let W := onWriter (HeaderSet "Content-Type" "application/json") W in
    let W := onWriter (WriteHeader StatusOK) W in
    Done (onWriter (Write bytesOut) W)
  end end end end end end end.

(** The world a request starts in: nothing written, logged or fetched. *)
Definition freshWorld (b : Backend) : World := mkWorld NewResponseWriter [] [] b.

(** The four expressions handed to [Fetch], in the order of the calls. *)
Definition queries : list string :=
  [QueryEscape invocationTotalQuery; QueryEscape invocation2XXQuery;
   QueryEscape invocationNon2XXQuery; QueryEscape averageResponseTimeQuery].

End Handler.
Arguments World {prometheusQuery}.

(** ** What the merge computes, sample by sample *)

Section MixInSpec.
Context {Other : Type} `{Strconv}.

(** The values [mixIn] adds for the record called [name] out of one
    response: those of the samples labelled [name] that [parseMetricValue]
    returns with a nil error, in the order of the response. *)
Definition parsedValue (name : string) (v : Sample) : list float :=
  if String.eqb (FunctionName (SampleMetric v)) name then
    match parseMetricValue (snd (Value v)) with
    | ((x, None), _) => [x]
    | ((_, Some _), _) => []
    end
  else [].

Definition parsedValues (name : string) (vs : list Sample) : list float :=
  flat_map (parsedValue name) vs.

(** A float64 sum as the loop takes it: from zero, left to right. *)
Definition sumFloat (xs : list float) : float := fold_left PrimFloat.add xs 0%float.

(** The lines one sample sends to the log while [name] is being looked up. *)
Definition sampleLog (name : string) (v : Sample) : list string :=
  if String.eqb (FunctionName (SampleMetric v)) name then
    snd (parseMetricValue (snd (Value v)))
  else [].

(** One step of an inner loop, seen on the element it assigns. *)
Definition accumulateElem (add : float -> Function Other -> Function Other)
  (name : string) (f : Function Other) (v : Sample) : Function Other :=
  if String.eqb (FunctionName (SampleMetric v)) name then
    match parseMetricValue (snd (Value v)) with
    | ((x, None), _) => add x f
    | ((_, Some _), _) => f
    end
  else f.

(** The four responses of a store. *)
Definition metricsOf (st : Store Other)
  : VectorQueryResponse * VectorQueryResponse * VectorQueryResponse * VectorQueryResponse :=
  (invocationCountMetrics st, invocationCount2XXMetrics st,
   invocationCountNon2XXMetrics st, averageResponseTimeMetrics st).

(** The store after the slice became [fs] and [lines] were logged. *)
Definition storeWith (fs : list (Function Other)) (lines : list string)
  (st : Store Other) : Store Other :=
  mkStore (Some fs) (invocationCountMetrics st) (invocationCount2XXMetrics st)
          (invocationCountNon2XXMetrics st) (averageResponseTimeMetrics st)
          (logged st ++ lines).

Definition resetElem (f : Function Other) : Function Other :=
  setAverageResponseTime 0%float
    (setInvocationCountNon2XX 0%float
       (setInvocationCount2XX 0%float (setInvocationCount 0%float f))).

(** The record [mixIn] leaves in place of [f]. *)
Definition enriched (a b c d : VectorQueryResponse) (f : Function Other)
  : Function Other :=
  mkFunction (Name f)
             (sumFloat (parsedValues (Name f) (DataResult a)))
             (sumFloat (parsedValues (Name f) (DataResult b)))
             (sumFloat (parsedValues (Name f) (DataResult c)))
             (sumFloat (parsedValues (Name f) (DataResult d)))
             (rest f).

(** The lines [mixIn] logs for the record [f]. *)
Definition enrichLog (a b c d : VectorQueryResponse) (f : Function Other)
  : list string :=
  flat_map (sampleLog (Name f)) (DataResult a)
  ++ flat_map (sampleLog (Name f)) (DataResult b)
  ++ flat_map (sampleLog (Name f)) (DataResult c)
  ++ flat_map (sampleLog (Name f)) (DataResult d).

(** The element the second loop leaves at an index that held [f]. *)
Definition enrichElem (a b c d : VectorQueryResponse) (f : Function Other)
  : Function Other :=
  fold_left (accumulateElem addAverageResponseTime (Name f)) (DataResult d)
    (fold_left (accumulateElem addInvocationCountNon2XX (Name f)) (DataResult c)
       (fold_left (accumulateElem addInvocationCount2XX (Name f)) (DataResult b)
          (fold_left (accumulateElem addInvocationCount (Name f)) (DataResult a) f))).

(** The lines [mixIn] logs over the slice [fs]. *)
Definition mixLog (a b c d : VectorQueryResponse) (fs : list (Function Other))
  : list string :=
  flat_map (enrichLog a b c d) fs.

(** The dynamic type of a value is string. *)
Definition isString (v : any) : bool :=
  match v with
  | AnyString _ => true
  | _ => false
  end.

(** A response without the samples whose value does not parse. *)
Definition parses (v : Sample) : bool :=
  match parseMetricValue (snd (Value v)) with
  | ((_, None), _) => true
  | ((_, Some _), _) => false
  end.


(** A sample is labelled with the name of a record of [fs]. *)
Definition named (fs : list (Function Other)) (v : Sample) : bool :=
  existsb (fun f => String.eqb (FunctionName (SampleMetric v)) (Name f)) fs.

(** A response without the samples that name no record of [fs]. *)
Definition dropUnmatched (fs : list (Function Other)) (r : VectorQueryResponse)
  : VectorQueryResponse :=
  mkVectorQueryResponse (List.filter (named fs) (DataResult r)).

(** What [mixIn] reads of a sample: its function name and the second
    component of its value. *)
Definition sampleKey (v : Sample) : string * any :=
  (FunctionName (SampleMetric v), snd (Value v)).

(** The form of the line the parser logs for the error [e]. *)
Definition parseLogLine (e : error) : string :=
  "Unable to convert value for metric: " ++ e.

End MixInSpec.

(** ** Instances the examples run on *)

(** [strconv.ParseFloat] on the short unsigned decimals (digits with at most
    one point), where the value is the quotient of two exactly represented
    integers; anything else is a syntax error with value 0. *)
Definition digitValue (c : ascii) : option float :=
  match c with
  | "0"%char => Some 0%float | "1"%char => Some 1%float | "2"%char => Some 2%float
  | "3"%char => Some 3%float | "4"%char => Some 4%float | "5"%char => Some 5%float
  | "6"%char => Some 6%float | "7"%char => Some 7%float | "8"%char => Some 8%float
  | "9"%char => Some 9%float | _ => None
  end.

Fixpoint scanDecimal (s : string) (mant pow : float) (seenDot seenDigit : bool)
  : option float :=
  match s with
  | EmptyString => if seenDigit then Some (PrimFloat.div mant pow) else None
  | String c s' =>
    if Ascii.eqb c "."%char then
      if seenDot then None else scanDecimal s' mant pow true seenDigit
    else
      match digitValue c with
      | Some d =>
        scanDecimal s' (PrimFloat.add (PrimFloat.mul mant 10%float) d)
                    (if seenDot then PrimFloat.mul pow 10%float else pow)
                    seenDot true
      | None => None
      end
  end.

Definition decimalParseFloat (s : string) : float * option error :=
  match scanDecimal s 0%float 1%float false false with
  | Some x => (x, None)
  | None => (0%float, Some ("strconv.ParseFloat: parsing " ++ dq ++ s ++ dq
                            ++ ": invalid syntax"))
  end.

Definition decimalStrconv : Strconv := {| ParseFloat := decimalParseFloat |}.

(** [url.QueryEscape]: letters, digits and [-_.~] stand, a space becomes a
    plus sign, any other byte is written in hexadecimal. *)
Definition hexDigit (n : N) : ascii :=
  ascii_of_N (if (n <? 10)%N then 48 + n else 55 + n).

Definition unreserved (n : N) : bool :=
  ((48 <=? n) && (n <=? 57) || (65 <=? n) && (n <=? 90) || (97 <=? n) && (n <=? 122)
   || (n =? 45) || (n =? 95) || (n =? 46) || (n =? 126))%N.

Fixpoint escapeQuery (s : string) : string :=
  match s with
  | EmptyString => EmptyString
  | String c s' =>
    let n := N_of_ascii c in
    if unreserved n then String c (escapeQuery s')
    else if (n =? 32)%N then String "+"%char (escapeQuery s')
    else String "%"%char (String (hexDigit (n / 16)) (String (hexDigit (n mod 16))
                                                             (escapeQuery s')))
  end.

Definition goNetURL : NetURL := {| QueryEscape := escapeQuery |}.

(** A codec that knows two bodies: the empty list, and the list of the one
    function fn1 with no metrics yet. *)
Definition fn1 : Function unit := mkFunction "fn1" 0%float 0%float 0%float 0%float tt.

Definition fn1Body : string :=
  "[{" ++ dq ++ "name" ++ dq ++ ":" ++ dq ++ "fn1" ++ dq ++ "}]".

Definition demoUnmarshal (body : string) : list (Function unit) * option error :=
  if String.eqb body "[]" then ([], None)
  else if String.eqb body fn1Body then ([fn1], None)
  else ([], Some "invalid character").

Definition demoMarshal (fs : list (Function unit)) : string * option error :=
  match fs with
  | [] => ("[]", None)
  | _ => (fn1Body, None)
  end.

Definition demoJSON : EncodingJSON unit :=
  {| Unmarshal := demoUnmarshal; Marshal := demoMarshal |}.

(** A backend that is down, and one that answers from a script. *)
Definition downFetcher : PrometheusQueryFetcher :=
  {| Backend := unit;
     Fetch := fun _ b => (inl "connection refused", b) |}.

Definition scriptedFetcher : PrometheusQueryFetcher :=
  {| Backend := list (error + VectorQueryResponse);
     Fetch := fun _ b =>
       match b with
       | [] => (inl "no answer", [])
       | answer :: b' => (answer, b')
       end |}.

(** Upstream handlers: one that lists [body] with status 200, one that
    answers with a status code and no body. *)
Definition listing (body : string) : @HandlerFunc unit :=
  fun recorder _ => mkResponseRecorder (Code recorder) (RecorderBody recorder ++ body).

Definition failing (code : Z) : @HandlerFunc unit :=
  fun recorder _ => mkResponseRecorder code (RecorderBody recorder).

Definition sample (name : string) (value : any) : Sample :=
  mkSample (mkMetric name []) (AnyFloat64 0%float, value).

Definition response (vs : list Sample) : VectorQueryResponse :=
  mkVectorQueryResponse vs.

(** [strconv.ParseFloat] reads the text NaN too, with a nil error. *)
Definition nanParseFloat (s : string) : float * option error :=
  if String.eqb s "NaN" then (PrimFloat.nan, None) else decimalParseFloat s.

Definition nanStrconv : Strconv := {| ParseFloat := nanParseFloat |}.

(** [json.Marshal] refuses a float64 that is not a number. *)
Definition hasNaN (f : Function unit) : bool :=
  is_nan (InvocationCount f) || is_nan (InvocationCount2XX f)
  || is_nan (InvocationCountNon2XX f) || is_nan (AverageResponseTime f).

Definition strictMarshal (fs : list (Function unit)) : string * option error :=
  if existsb hasNaN fs then ("", Some "json: unsupported value: NaN")
  else demoMarshal fs.

Definition strictJSON : EncodingJSON unit :=
  {| Unmarshal := demoUnmarshal; Marshal := strictMarshal |}.

(** The function fn1 with metrics of an earlier merge. *)
Definition fn1Stale : Function unit := mkFunction "fn1" 7%float 7%float 7%float 7%float tt.

(** Answers of the backend to the four queries: fn1 with 10 invocations, 8 of
    them 2xx, and a mean time that is 0.25 or, after 0/0, NaN. *)
Definition fn1Answers (mean : string) : list (error + VectorQueryResponse) :=
  [inr (response [sample "fn1" (AnyString "10")]);
   inr (response [sample "fn1" (AnyString "8")]);
   inr (response []);
   inr (response [sample "fn1" (AnyString mean)])].

(** ** Lemmas on the loops *)

Open Scope list_scope.

Lemma bind_Done {A B : Type} (a : A) (k : A -> outcome B) : bind (Done a) k = k a.
Proof. reflexivity. Qed.

Lemma forEach_app {A S : Type} (body : S -> A -> outcome S) (l1 l2 : list A) (s : S) :
  forEach body (l1 ++ l2) s = (s' <~ forEach body l1 s ;; forEach body l2 s').
Proof.
  revert s. induction l1 as [|x l1 IH]; intros s; simpl; [reflexivity|].
  destruct (body s x) as [s'|msg]; simpl; [apply IH | reflexivity].
Qed.

Section Field.
Context {Other : Type} `{Strconv}.
Implicit Types (f : Function Other) (st : Store Other) (fs : list (Function Other)).

(** A field of the record, with its assignment and its [+=]. *)
Variable get : Function Other -> float.
Variable set add : float -> Function Other -> Function Other.
Hypothesis add_set : forall x f, add x f = set (PrimFloat.add (get f) x) f.
Hypothesis set_set : forall x y f, set x (set y f) = set x f.
Hypothesis get_set : forall x f, get (set x f) = x.
Hypothesis set_get : forall f, set (get f) f = f.

Lemma fold_accumulateElem name vs f :
  fold_left (accumulateElem add name) vs f
  = set (fold_left PrimFloat.add (parsedValues name vs) (get f)) f.
Proof.
  revert f. induction vs as [|v vs IH]; intros f; simpl.
  - symmetry. apply set_get.
  - rewrite IH. unfold parsedValues. simpl. unfold accumulateElem, parsedValue.
    destruct (String.eqb _ name); simpl; [|reflexivity].
    destruct (parseMetricValue (snd (Value v))) as [[x [e|]] lines]; simpl;
      [reflexivity|].
    rewrite add_set, get_set, set_set. reflexivity.
Qed.

End Field.

Section Loops.
Context {Other : Type} `{Strconv}.
Implicit Types (f : Function Other) (st : Store Other) (fs : list (Function Other)).

Lemma storeWith_storeWith fs1 fs2 l1 l2 st :
  storeWith fs2 l2 (storeWith fs1 l1 st) = storeWith fs2 (l1 ++ l2) st.
Proof. unfold storeWith. simpl. rewrite <- app_assoc. reflexivity. Qed.

Lemma storeWith_id fs st : functions st = Some fs -> storeWith fs [] st = st.
Proof.
  destruct st as [o a b c d l]. simpl. intros ->. unfold storeWith. simpl.
  rewrite app_nil_r. reflexivity.
Qed.

Lemma metricsOf_storeWith fs lines st : metricsOf (storeWith fs lines st) = metricsOf st.
Proof. reflexivity. Qed.

Lemma updateAt_Done i g st fs f :
  functions st = Some fs -> fs !! i = Some f ->
  updateAt i g st = Done (storeWith (<[i := g f]> fs) [] st).
Proof.
  intros Hfs Hi. unfold updateAt, deref. rewrite Hfs. simpl. rewrite Hi.
  unfold setFunctions, storeWith. rewrite app_nil_r. reflexivity.
Qed.

Lemma logPrint_storeWith lines st fs :
  functions st = Some fs -> logPrint lines st = storeWith fs lines st.
Proof. intros Hfs. unfold logPrint, storeWith. rewrite Hfs. reflexivity. Qed.

(** An inner loop assigns element [i] alone, running [accumulateElem] on it. *)
Lemma forEach_accumulate add i name vs : forall st fs f,
  functions st = Some fs -> fs !! i = Some f ->
  forEach (accumulate add i name) vs st
  = Done (storeWith (<[i := fold_left (accumulateElem add name) vs f]> fs)
                    (flat_map (sampleLog name) vs) st).
Proof.
  induction vs as [|v vs IH]; intros st fs f Hfs Hi; simpl.
  - rewrite list_insert_id by exact Hi. rewrite storeWith_id by exact Hfs. reflexivity.
  - assert (Hlt : i < length fs) by (eapply lookup_lt_Some; exact Hi).
    unfold accumulate at 1, accumulateElem at 2, sampleLog at 1.
    destruct (String.eqb (FunctionName (SampleMetric v)) name).
    + destruct (parseMetricValue (snd (Value v))) as [[x [e|]] lines]; simpl.
      * rewrite (logPrint_storeWith lines st fs Hfs).
        rewrite (IH (storeWith fs lines st) fs f eq_refl Hi).
        rewrite storeWith_storeWith. reflexivity.
      * rewrite (logPrint_storeWith lines st fs Hfs).
        rewrite (updateAt_Done i (add x) (storeWith fs lines st) fs f eq_refl Hi).
        simpl.
        rewrite (IH (storeWith (<[i := add x f]> fs) [] (storeWith fs lines st))
                    (<[i := add x f]> fs) (add x f) eq_refl
                    (list_lookup_insert_eq fs i _ Hlt)).
        rewrite list_insert_insert_eq, !storeWith_storeWith. reflexivity.
    + simpl. apply (IH st fs f Hfs Hi).
Qed.

(** A loop over the indices of the slice whose body assigns [g] of element [i]
    to element [i] and logs [lg] of it: the slice is mapped by [g]. *)
Lemma forEach_indices (body : Store Other -> nat -> outcome (Store Other))
  (g : Function Other -> Function Other) (lg : Function Other -> list string) M :
  (forall st fs i f, metricsOf st = M -> functions st = Some fs -> fs !! i = Some f ->
     body st i = Done (storeWith (<[i := g f]> fs) (lg f) st)) ->
  forall suf pre st, metricsOf st = M -> functions st = Some (pre ++ suf)%list ->
    forEach body (seq (length pre) (length suf)) st
    = Done (storeWith (pre ++ map g suf) (flat_map lg suf) st).
Proof.
  intros Hbody. induction suf as [|x suf IH]; intros pre st HM Hfs; simpl.
  - rewrite storeWith_id by exact Hfs. reflexivity.
  - rewrite (Hbody st (pre ++ x :: suf) (length pre) x HM Hfs
               (list_lookup_middle pre suf x (length pre) eq_refl)). simpl.
    rewrite (insert_app_r_alt pre (x :: suf) (length pre)) by reflexivity.
    rewrite Nat.sub_diag. simpl.
    specialize (IH (pre ++ [g x]) (storeWith (pre ++ g x :: suf) (lg x) st)).
    rewrite length_app in IH. simpl in IH. rewrite Nat.add_1_r in IH.
    rewrite IH.
    + rewrite storeWith_storeWith, <- app_assoc. reflexivity.
    + exact HM.
    + simpl. rewrite <- app_assoc. reflexivity.
Qed.

Lemma forEach_range (body : Store Other -> nat -> outcome (Store Other))
  (g : Function Other -> Function Other) (lg : Function Other -> list string) M :
  (forall st fs i f, metricsOf st = M -> functions st = Some fs -> fs !! i = Some f ->
     body st i = Done (storeWith (<[i := g f]> fs) (lg f) st)) ->
  forall fs st, metricsOf st = M -> functions st = Some fs ->
    forEach body (seq 0 (length fs)) st
    = Done (storeWith (map g fs) (flat_map lg fs) st).
Proof.
  intros Hbody fs st HM Hfs.
  exact (forEach_indices body g lg M Hbody fs [] st HM Hfs).
Qed.

End Loops.

Section Merge.
Context {Other : Type} `{Strconv}.
Implicit Types (f : Function Other) (st : Store Other) (fs : list (Function Other)).
Implicit Types (a b c d : VectorQueryResponse).

Lemma updateAt_storeWith i g st fs lines f :
  fs !! i = Some f ->
  updateAt i g (storeWith fs lines st) = Done (storeWith (<[i := g f]> fs) lines st).
Proof.
  intros Hi. rewrite (updateAt_Done i g (storeWith fs lines st) fs f eq_refl Hi).
  rewrite storeWith_storeWith, app_nil_r. reflexivity.
Qed.

Lemma resetAt_Done st fs i f :
  functions st = Some fs -> fs !! i = Some f ->
  resetAt st i = Done (storeWith (<[i := resetElem f]> fs) [] st).
Proof.
  intros Hfs Hi. assert (Hlt : i < length fs) by (eapply lookup_lt_Some; exact Hi).
  unfold resetAt. rewrite (updateAt_Done i _ st fs f Hfs Hi). simpl.
  rewrite (updateAt_storeWith i _ st _ [] (setInvocationCount 0 f))
    by (apply list_lookup_insert_eq; exact Hlt).
  simpl. rewrite list_insert_insert_eq.
  rewrite (updateAt_storeWith i _ st _ []
             (setInvocationCount2XX 0 (setInvocationCount 0 f)))
    by (apply list_lookup_insert_eq; exact Hlt).
  simpl. rewrite list_insert_insert_eq.
  rewrite (updateAt_storeWith i _ st _ []
             (setInvocationCountNon2XX 0
                (setInvocationCount2XX 0 (setInvocationCount 0 f))))
    by (apply list_lookup_insert_eq; exact Hlt).
  rewrite list_insert_insert_eq. reflexivity.
Qed.

Lemma forEach_accumulate_storeWith add i name vs st fs lines f :
  fs !! i = Some f ->
  forEach (accumulate add i name) vs (storeWith fs lines st)
  = Done (storeWith (<[i := fold_left (accumulateElem add name) vs f]> fs)
                    (lines ++ flat_map (sampleLog name) vs) st).
Proof.
  intros Hi.
  rewrite (forEach_accumulate add i name vs (storeWith fs lines st) fs f eq_refl Hi).
  rewrite storeWith_storeWith. reflexivity.
Qed.

Lemma enrichAt_Done a b c d st fs i f :
  metricsOf st = (a, b, c, d) -> functions st = Some fs -> fs !! i = Some f ->
  enrichAt st i
  = Done (storeWith (<[i := enrichElem a b c d f]> fs) (enrichLog a b c d f) st).
Proof.
  intros HM Hfs Hi. assert (Hlt : i < length fs) by (eapply lookup_lt_Some; exact Hi).
  unfold metricsOf in HM. injection HM as Ha Hb Hc Hd.
  unfold enrichAt, deref. rewrite Hfs. simpl. rewrite Hi.
  rewrite (forEach_accumulate _ i (Name f) _ st fs f Hfs Hi). simpl.
  erewrite forEach_accumulate_storeWith by (apply list_lookup_insert_eq; exact Hlt).
  simpl. rewrite list_insert_insert_eq.
  erewrite forEach_accumulate_storeWith by (apply list_lookup_insert_eq; exact Hlt).
  simpl. rewrite list_insert_insert_eq.
  erewrite forEach_accumulate_storeWith by (apply list_lookup_insert_eq; exact Hlt).
  rewrite list_insert_insert_eq.
  unfold enrichElem, enrichLog. rewrite Ha, Hb, Hc, Hd, <- !app_assoc. reflexivity.
Qed.

(** The laws of [Section Field], for each of the four fields. *)
Ltac field_law :=
  intros; try reflexivity;
  match goal with |- _ = ?f => destruct f; reflexivity end.

Lemma enrichElem_resetElem a b c d f :
  enrichElem a b c d (resetElem f) = enriched a b c d f.
Proof.
  unfold enrichElem.
  rewrite (fold_accumulateElem InvocationCount setInvocationCount addInvocationCount)
    by field_law.
  rewrite (fold_accumulateElem InvocationCount2XX setInvocationCount2XX
             addInvocationCount2XX) by field_law.
  rewrite (fold_accumulateElem InvocationCountNon2XX setInvocationCountNon2XX
             addInvocationCountNon2XX) by field_law.
  rewrite (fold_accumulateElem AverageResponseTime setAverageResponseTime
             addAverageResponseTime) by field_law.
  destruct f. reflexivity.
Qed.

Lemma flat_map_nil {A B : Type} (l : list A) : flat_map (fun _ => @nil B) l = [].
Proof. induction l; simpl; [reflexivity | assumption]. Qed.

Lemma flat_map_map {A B C : Type} (g : A -> B) (h : B -> list C) (l : list A) :
  flat_map h (map g l) = flat_map (fun x => h (g x)) l.
Proof. induction l as [|x l IH]; simpl; [reflexivity | rewrite IH; reflexivity]. Qed.

(** [mixIn] on a slice: every record is replaced by its [enriched] one. *)
Lemma mixIn_Some a b c d st fs :
  metricsOf st = (a, b, c, d) -> functions st = Some fs ->
  mixIn st = Done (storeWith (map (enriched a b c d) fs) (mixLog a b c d fs) st).
Proof.
  intros HM Hfs. unfold mixIn, rangeIndices, deref. rewrite Hfs. simpl.
  rewrite (forEach_range resetAt resetElem (fun _ => []) (a, b, c, d)
             (fun st fs i f _ => resetAt_Done st fs i f) fs st HM Hfs).
  simpl. rewrite flat_map_nil.
  rewrite (forEach_range enrichAt (enrichElem a b c d) (enrichLog a b c d)
             (a, b, c, d) (enrichAt_Done a b c d) (map resetElem fs)
             (storeWith (map resetElem fs) [] st) HM eq_refl).
  rewrite storeWith_storeWith. simpl. rewrite map_map, flat_map_map.
  unfold mixLog. f_equal. f_equal.
  apply map_ext. intros f. apply enrichElem_resetElem.
Qed.

Lemma mixIn_nil st : functions st = None -> mixIn st = Done st.
Proof. intros Hfs. unfold mixIn. rewrite Hfs. reflexivity. Qed.

End Merge.

(** ** Properties of the merge *)

Section MergeProperties.
Context {Other : Type} `{Strconv}.
Implicit Types (f : Function Other) (st : Store Other) (fs : list (Function Other)).
Implicit Types (a b c d : VectorQueryResponse).

Lemma enriched_enriched a b c d f :
  enriched a b c d (enriched a b c d f) = enriched a b c d f.
Proof. reflexivity. Qed.

Lemma metricsOf_eta st :
  metricsOf st = (invocationCountMetrics st, invocationCount2XXMetrics st,
                  invocationCountNon2XXMetrics st, averageResponseTimeMetrics st).
Proof. reflexivity. Qed.

(** [mixIn] returns, whatever it is given. *)
Lemma mixIn_Done st :
  exists st', mixIn st = Done st' /\ metricsOf st' = metricsOf st
    /\ functions st'
       = map (enriched (invocationCountMetrics st) (invocationCount2XXMetrics st)
                       (invocationCountNon2XXMetrics st)
                       (averageResponseTimeMetrics st)) <$> functions st.
Proof.
  destruct (functions st) as [fs|] eqn:Hfs.
  - eexists. split; [apply (mixIn_Some _ _ _ _ st fs (metricsOf_eta st) Hfs)|].
    split; reflexivity.
  - exists st. rewrite (mixIn_nil st Hfs). rewrite Hfs. repeat split.
Qed.

Lemma mixIn_mkStore fs a b c d lines :
  mixIn (mkStore (Some fs) a b c d lines)
  = Done (mkStore (Some (map (enriched a b c d) fs)) a b c d
                  (lines ++ mixLog a b c d fs)).
Proof. apply (mixIn_Some a b c d (mkStore (Some fs) a b c d lines) fs); reflexivity. Qed.

Lemma mixIn_lookup fs a b c d lines i f :
  fs !! i = Some f ->
  exists st' fs',
    mixIn (mkStore (Some fs) a b c d lines) = Done st'
    /\ functions st' = Some fs'
    /\ fs' !! i = Some (enriched a b c d f).
Proof.
  intros Hi. eexists. eexists. split; [apply mixIn_mkStore|].
  split; [reflexivity|]. rewrite list_lookup_fmap, Hi. reflexivity.
Qed.

Lemma parsedValues_app name vs1 vs2 :
  parsedValues name (vs1 ++ vs2) = parsedValues name vs1 ++ parsedValues name vs2.
Proof. apply flat_map_app. Qed.

Lemma parsedValues_cons name v vs :
  parsedValues name (v :: vs) = parsedValue name v ++ parsedValues name vs.
Proof. reflexivity. Qed.




(** C3. Merge is idempotent: a second call of [mixIn] on the store the first
    call left (the same four responses, the slice as merged) returns too and
    leaves the slice as the first call left it. *)
Theorem mixIn_idempotent st :
  exists st1 st2,
    mixIn st = Done st1 /\ metricsOf st1 = metricsOf st
    /\ mixIn st1 = Done st2 /\ functions st2 = functions st1.
Proof.
  destruct (mixIn_Done st) as (st1 & H1 & HM1 & Hf1).
  destruct (mixIn_Done st1) as (st2 & H2 & _ & Hf2).
  exists st1, st2. repeat split; try assumption.
  rewrite Hf2. unfold metricsOf in HM1. injection HM1 as -> -> -> ->.
  rewrite Hf1. destruct (functions st) as [fs|]; simpl; [|reflexivity].
  rewrite map_map. reflexivity.
Qed.

(** C4. For every record of the slice and each of the four responses, the
    field of the record is, after the merge, the float64 sum (from zero, in
    the order of the response) of the values of all the samples labelled with
    the name of the record that parsed without error. *)
Theorem mixIn_sums_samples fs a b c d lines :
  exists st' fs',
    mixIn (mkStore (Some fs) a b c d lines) = Done st'
    /\ functions st' = Some fs'
    /\ forall i f, fs !! i = Some f ->
       exists f', fs' !! i = Some f'
         /\ InvocationCount f' = sumFloat (parsedValues (Name f) (DataResult a))
         /\ InvocationCount2XX f' = sumFloat (parsedValues (Name f) (DataResult b))
         /\ InvocationCountNon2XX f' = sumFloat (parsedValues (Name f) (DataResult c))
         /\ AverageResponseTime f' = sumFloat (parsedValues (Name f) (DataResult d)).
Proof.
  eexists. eexists. split; [apply mixIn_mkStore|].
  split; [reflexivity|]. intros i f Hi.
  exists (enriched a b c d f). split.
  - rewrite list_lookup_fmap, Hi. reflexivity.
  - repeat split.
Qed.


(** C7. Merging with four responses that have no sample sets the four fields
    of every record to 0, whatever they held. *)
Theorem mixIn_empty_zero fs lines :
  exists st' fs',
    mixIn (mkStore (Some fs) (mkVectorQueryResponse []) (mkVectorQueryResponse [])
                   (mkVectorQueryResponse []) (mkVectorQueryResponse []) lines)
    = Done st'
    /\ functions st' = Some fs'
    /\ length fs' = length fs
    /\ Forall (fun f' => InvocationCount f' = 0%float
                         /\ InvocationCount2XX f' = 0%float
                         /\ InvocationCountNon2XX f' = 0%float
                         /\ AverageResponseTime f' = 0%float) fs'.
Proof.
  eexists. eexists. split; [apply mixIn_mkStore|].
  split; [reflexivity|]. split; [apply length_map|].
  induction fs as [|f fs IH]; simpl; constructor; [repeat split | exact IH].
Qed.


(** C9. [mixIn] assigns the four metric fields alone: the slice keeps its
    length and its order, every record keeps its name and the rest of its
    fields, and the four responses are as they were. *)
Theorem mixIn_frame st :
  exists st',
    mixIn st = Done st'
    /\ metricsOf st' = metricsOf st
    /\ length <$> functions st' = length <$> functions st
    /\ map Name <$> functions st' = map Name <$> functions st
    /\ map rest <$> functions st' = map rest <$> functions st.
Proof.
  destruct (mixIn_Done st) as (st' & H1 & HM & Hf).
  exists st'. split; [exact H1|]. split; [exact HM|]. rewrite Hf.
  destruct (functions st) as [fs|]; simpl; [|repeat split].
  rewrite length_map, !map_map. simpl. repeat split.
Qed.

End MergeProperties.

(** ** Properties of the parser *)

Section ParseProperties.
Context {Other : Type} `{Strconv}.

Lemma logPrint_nil (st : Store Other) : logPrint [] st = st.
Proof. destruct st. unfold logPrint. simpl. rewrite app_nil_r. reflexivity. Qed.

(** C2, as the code has it. For a value that is not a string the parser
    returns the value 0 and a nil error, and logs nothing: there is no
    error for an unsupported type. *)
Theorem parseMetricValue_not_string (v : any) :
  isString v = false -> parseMetricValue v = ((0%float, None), []).
Proof. destruct v; simpl; intros Hv; try reflexivity; discriminate. Qed.

(** C10. For a value that is not a string the parser returns 0 and no error.
    So the loop body, on a sample with that value whose label is the name
    looked up, runs the [+=] of the field with 0 (it does not skip the
    sample), and in the merge the sample stands as a 0 among the values
    summed into the field of the record it names, for each of the four
    responses. *)
Theorem accumulate_not_string (v : any) :
  isString v = false ->
  parseMetricValue v = ((0%float, None), [])
  /\ (forall (add : float -> Function Other -> Function Other) (i : nat)
             (st : Store Other) (smp : Sample),
        snd (Value smp) = v ->
        accumulate add i (FunctionName (SampleMetric smp)) st smp
        = updateAt i (add 0%float) st)
  /\ (forall (fs : list (Function Other)) (i : nat) (f : Function Other)
             (pre post : list Sample) (smp : Sample)
             (r1 r2 r3 : VectorQueryResponse) (lines : list string),
        snd (Value smp) = v ->
        FunctionName (SampleMetric smp) = Name f ->
        fs !! i = Some f ->
        let r := mkVectorQueryResponse (pre ++ smp :: post) in
        let total :=
          sumFloat (parsedValues (Name f) pre ++ 0%float :: parsedValues (Name f) post) in
        (exists st' fs' f',
           mixIn (mkStore (Some fs) r r1 r2 r3 lines) = Done st'
           /\ functions st' = Some fs' /\ fs' !! i = Some f'
           /\ InvocationCount f' = total)
        /\ (exists st' fs' f',
              mixIn (mkStore (Some fs) r1 r r2 r3 lines) = Done st'
              /\ functions st' = Some fs' /\ fs' !! i = Some f'
              /\ InvocationCount2XX f' = total)
        /\ (exists st' fs' f',
              mixIn (mkStore (Some fs) r1 r2 r r3 lines) = Done st'
              /\ functions st' = Some fs' /\ fs' !! i = Some f'
              /\ InvocationCountNon2XX f' = total)
        /\ (exists st' fs' f',
              mixIn (mkStore (Some fs) r1 r2 r3 r lines) = Done st'
              /\ functions st' = Some fs' /\ fs' !! i = Some f'
              /\ AverageResponseTime f' = total)).
Proof.
  intros Hv.
  assert (Hp : parseMetricValue v = ((0%float, None), []))
    by (destruct v; simpl; try reflexivity; discriminate).
  split; [exact Hp|]. split.
  - intros add i st smp Hsmp.
    unfold accumulate. rewrite String.eqb_refl, Hsmp, Hp.
    rewrite logPrint_nil. reflexivity.
  - intros fs i f pre post smp r1 r2 r3 lines Hsmp Hname Hi r total.
    assert (Htotal : sumFloat (parsedValues (Name f) (DataResult r)) = total).
    { unfold total, r. simpl. rewrite parsedValues_app, parsedValues_cons.
      unfold parsedValue at 1. rewrite Hname, String.eqb_refl, Hsmp, Hp.
      reflexivity. }
    repeat split.
    + destruct (mixIn_lookup fs r r1 r2 r3 lines i f Hi) as (st' & fs' & Hrun & Hfs & Hlk).
      exists st', fs', (enriched r r1 r2 r3 f). repeat split; assumption.
    + destruct (mixIn_lookup fs r1 r r2 r3 lines i f Hi) as (st' & fs' & Hrun & Hfs & Hlk).
      exists st', fs', (enriched r1 r r2 r3 f). repeat split; assumption.
    + destruct (mixIn_lookup fs r1 r2 r r3 lines i f Hi) as (st' & fs' & Hrun & Hfs & Hlk).
      exists st', fs', (enriched r1 r2 r r3 f). repeat split; assumption.
    + destruct (mixIn_lookup fs r1 r2 r3 r lines i f Hi) as (st' & fs' & Hrun & Hfs & Hlk).
      exists st', fs', (enriched r1 r2 r3 r f). repeat split; assumption.
Qed.

End ParseProperties.

(** ** Properties of the decorator *)

Section HandlerProperties.
Context {Other Request : Type}.
Context `{Strconv} `{NetURL} `{EncodingJSON Other}.
Context {prometheusQuery : PrometheusQueryFetcher}.

(** C6. When the wrapped handler answers with a status code other than 200,
    the decorator sends status 500 with Content-Type text/plain and a text
    that ends in the decimal form of that status code (503 for a 503), and
    makes no call of [Fetch]. *)
Theorem upstream_error_is_500 (handler : HandlerFunc) (r : Request) (b : Backend) :
  Code (handler NewRecorder r) <> StatusOK ->
  exists W',
    AddMetricsHandler handler (freshWorld b) r = Done W'
    /\ status (w W') = Some 500%Z
    /\ header (w W') !! "Content-Type" = Some "text/plain"
    /\ written (w W')
       = ("Error pulling metrics from provider/backend. Status code: "
          ++ formatInt (Code (handler NewRecorder r)))%string
    /\ fetched W' = []
    /\ backend W' = b.
Proof.
  intros Hcode. unfold AddMetricsHandler. simpl.
  destruct (Z.eqb_spec (Code (handler NewRecorder r)) StatusOK) as [Heq|_];
    [contradiction|].
  simpl. eexists. split; [reflexivity|]. simpl.
  repeat split.
Qed.

(** C1. When the wrapped handler answers 200 with a body that parses as a
    function list, the decorator returns; and if one of its calls of [Fetch]
    answered with an error, it has sent the body it captured, as it is, with
    status 200 and Content-Type application/json, and the failed call is its
    last one: the calls made are the first of the four queries, in order,
    up to the failed one. *)
Theorem fetch_error_falls_back (handler : HandlerFunc) (r : Request) (b : Backend)
  (fs : list (Function Other)) :
  Code (handler NewRecorder r) = StatusOK ->
  Unmarshal (RecorderBody (handler NewRecorder r)) = (fs, None) ->
  exists W',
    AddMetricsHandler handler (freshWorld b) r = Done W'
    /\ ((exists expr e, In (expr, inl e) (fetched W')) ->
        status (w W') = Some 200%Z
        /\ header (w W') !! "Content-Type" = Some "application/json"
        /\ written (w W') = RecorderBody (handler NewRecorder r)
        /\ exists answers e,
             length answers < 4
             /\ map fst (fetched W') = firstn (S (length answers)) queries
             /\ map snd (fetched W') = map inr answers ++ [inl e]).
Proof.
  intros Hcode Hbody. unfold AddMetricsHandler. simpl.
  rewrite Hcode. simpl. unfold ReadAll. rewrite Hbody. unfold fetch. simpl.
  destruct (Fetch (QueryEscape invocationTotalQuery) b) as [[e1|r1] b1].
  { eexists. split; [reflexivity|]. intros _. simpl. repeat split.
    exists [], e1. simpl. repeat split. lia. }
  simpl.
  destruct (Fetch (QueryEscape invocation2XXQuery) b1) as [[e2|r2] b2].
  { eexists. split; [reflexivity|]. intros _. simpl. repeat split.
    exists [r1], e2. simpl. repeat split. lia. }
  simpl.
  destruct (Fetch (QueryEscape invocationNon2XXQuery) b2) as [[e3|r3] b3].
  { eexists. split; [reflexivity|]. intros _. simpl. repeat split.
    exists [r1; r2], e3. simpl. repeat split. lia. }
  simpl.
  destruct (Fetch (QueryEscape averageResponseTimeQuery) b3) as [[e4|r4] b4].
  { eexists. split; [reflexivity|]. intros _. simpl. repeat split.
    exists [r1; r2; r3], e4. simpl. repeat split. lia. }
  simpl. rewrite mixIn_mkStore. simpl.
  destruct (Marshal (map (enriched r1 r2 r3 r4) fs)) as [bytesOut [e|]];
    (eexists; split; [reflexivity|]);
    intros (expr & e' & Hin); simpl in Hin;
    repeat (destruct Hin as [Hin|Hin]; [discriminate Hin|]); destruct Hin.
Qed.

End HandlerProperties.

(** ** The model run on examples *)

(** The example of the specification: one function, 10 invocations of which
    8 with a 2xx status, no sample for the others, 0.25 s on average. *)
Example mixIn_fn1 :
  @mixIn unit decimalStrconv
    (mkStore (Some [fn1])
       (response [sample "fn1" (AnyString "10")])
       (response [sample "fn1" (AnyString "8")])
       (response [])
       (response [sample "fn1" (AnyString "0.25")]) [])
  = Done (mkStore (Some [mkFunction "fn1" 10%float 8%float 0%float 0.25%float tt])
       (response [sample "fn1" (AnyString "10")])
       (response [sample "fn1" (AnyString "8")])
       (response [])
       (response [sample "fn1" (AnyString "0.25")]) []).
Proof. vm_compute. reflexivity. Qed.

(** Two samples of one name are added; a sample of another name, one that
    does not parse and one that is not a string leave the sum as it is. *)
Example mixIn_duplicates :
  exists st',
    @mixIn unit decimalStrconv
      (mkStore (Some [mkFunction "fn1" 7%float 7%float 7%float 7%float tt])
         (response [sample "fn1" (AnyString "10"); sample "fn2" (AnyString "3");
                    sample "fn1" (AnyString "1e3"); sample "fn1" AnyNil;
                    sample "fn1" (AnyString "5")])
         (response []) (response []) (response []) [])
    = Done st'
    /\ functions st' = Some [mkFunction "fn1" 15%float 0%float 0%float 0%float tt]
    /\ length (logged st') = 1.
Proof. eexists. split; [vm_compute; reflexivity|]. split; reflexivity. Qed.

Example escapeQuery_braces : escapeQuery "a b{c}" = "a+b%7Bc%7D".
Proof. reflexivity. Qed.

(** ** Instances of the theorems *)

(** C2: a JSON number is not a string, and the parser returns no error for
    it. *)
Lemma parseMetricValue_number_no_error :
  isString (AnyFloat64 10%float) = false
  /\ @parseMetricValue decimalStrconv (AnyFloat64 10%float) = ((0%float, None), [])
  /\ ~ (exists e : error,
          snd (fst (@parseMetricValue decimalStrconv (AnyFloat64 10%float))) = Some e).
Proof.
  split; [reflexivity|]. split; [reflexivity|].
  intros [e He]. simpl in He. discriminate He.
Qed.

Lemma parseMetricValue_not_string_witness :
  isString AnyNil = false
  /\ @parseMetricValue decimalStrconv AnyNil = ((0%float, None), []).
Proof.
  split; [reflexivity|].
  apply (@parseMetricValue_not_string decimalStrconv AnyNil). reflexivity.
Defined.

Lemma accumulate_not_string_witness :
  isString (AnyFloat64 10%float) = false
  /\ @accumulate unit decimalStrconv addInvocationCount 0 "fn1"
       (mkStore (Some [mkFunction "fn1" 3%float 0%float 0%float 0%float tt])
                (response []) (response []) (response []) (response []) [])
       (sample "fn1" (AnyFloat64 10%float))
     = Done (mkStore (Some [mkFunction "fn1" (3 + 0)%float 0%float 0%float 0%float tt])
                     (response []) (response []) (response []) (response []) []).
Proof.
  split; [reflexivity|].
  destruct (@accumulate_not_string unit decimalStrconv (AnyFloat64 10%float) eq_refl)
    as (_ & Hacc & _).
  pose proof (Hacc addInvocationCount 0
                (mkStore (Some [mkFunction "fn1" 3%float 0%float 0%float 0%float tt])
                         (response []) (response []) (response []) (response []) [])
                (sample "fn1" (AnyFloat64 10%float)) eq_refl) as Hstep.
  simpl in Hstep. rewrite Hstep. reflexivity.
Defined.

Lemma upstream_error_is_500_witness :
  Code (failing 503 NewRecorder tt) <> StatusOK
  /\ exists W' : @World downFetcher,
       @AddMetricsHandler unit unit decimalStrconv goNetURL demoJSON downFetcher
         (failing 503) (@freshWorld downFetcher tt) tt = Done W'
       /\ status (w W') = Some 500%Z
       /\ header (w W') !! "Content-Type" = Some "text/plain"
       /\ written (w W')
          = "Error pulling metrics from provider/backend. Status code: 503"
       /\ fetched W' = []
       /\ backend W' = (tt : @Backend downFetcher).
Proof.
  assert (Hcode : Code (failing 503 NewRecorder tt) <> StatusOK)
    by (simpl; unfold StatusOK; lia).
  split; [exact Hcode|].
  exact (@upstream_error_is_500 unit unit decimalStrconv goNetURL demoJSON downFetcher
           (failing 503) tt tt Hcode).
Defined.

Lemma fetch_error_falls_back_witness :
  Code (listing fn1Body NewRecorder tt) = StatusOK
  /\ demoUnmarshal (RecorderBody (listing fn1Body NewRecorder tt)) = ([fn1], None)
  /\ exists W' : @World downFetcher,
       @AddMetricsHandler unit unit decimalStrconv goNetURL demoJSON downFetcher
         (listing fn1Body) (@freshWorld downFetcher tt) tt = Done W'
       /\ fetched W' = [(escapeQuery invocationTotalQuery, inl "connection refused")]
       /\ status (w W') = Some 200%Z
       /\ header (w W') !! "Content-Type" = Some "application/json"
       /\ written (w W') = fn1Body.
Proof.
  split; [reflexivity|]. split; [reflexivity|].
  destruct (@fetch_error_falls_back unit unit decimalStrconv goNetURL demoJSON
              downFetcher (listing fn1Body) tt tt [fn1] eq_refl eq_refl)
    as (W' & Hrun & Hfallback).
  exists W'. split; [exact Hrun|].
  assert (Hfetched :
            fetched W' = [(escapeQuery invocationTotalQuery, inl "connection refused")]).
  { vm_compute in Hrun. injection Hrun as <-. vm_compute. reflexivity. }
  split; [exact Hfetched|].
  destruct Hfallback as (Hstatus & Hheader & Hwritten & _).
  { rewrite Hfetched. eexists _, _. left. reflexivity. }
  repeat split; assumption.
Defined.

(** ** Further properties of the parser and of the merge *)

Section MergeFurther.
Context {Other : Type} `{Strconv}.
Implicit Types (f g : Function Other) (st : Store Other) (fs : list (Function Other)).
Implicit Types (a b c d : VectorQueryResponse).

(** X1. The parser logs when, and only when, it returns an error: one line, the
    fixed text followed by the error; and it returns an error only for a
    string, the error and the value being those of [ParseFloat]. *)
Theorem parseMetricValue_logs_iff_error (v : any) :
  match snd (fst (parseMetricValue v)) with
  | Some e =>
    snd (parseMetricValue v) = [parseLogLine e]
    /\ exists s, v = AnyString s /\ ParseFloat s = (fst (fst (parseMetricValue v)), Some e)
  | None =>
    snd (parseMetricValue v) = []
    /\ forall s, v = AnyString s -> ParseFloat s = (fst (fst (parseMetricValue v)), None)
  end.
Proof.
  destruct v as [| |x|s| |]; simpl; try (split; [reflexivity | discriminate]).
  destruct (ParseFloat s) as [x [e|]] eqn:Hs; simpl.
  - split; [reflexivity|]. exists s. split; [reflexivity | exact Hs].
  - split; [reflexivity|]. intros s' [= <-]. exact Hs.
Qed.

Lemma named_In fs f v :
  In f fs -> named fs v = false ->
  String.eqb (FunctionName (SampleMetric v)) (Name f) = false.
Proof.
  unfold named. induction fs as [|g fs IH]; simpl; [contradiction|].
  intros [->|Hin] Hv; apply orb_false_iff in Hv; destruct Hv as [Hg Hfs];
    [exact Hg | apply IH; assumption].
Qed.

Lemma parsedValues_dropUnmatched fs f r :
  In f fs ->
  parsedValues (Name f) (DataResult (dropUnmatched fs r))
  = parsedValues (Name f) (DataResult r).
Proof.
  intros Hin. unfold dropUnmatched, parsedValues. simpl.
  induction (DataResult r) as [|v vs IH]; simpl; [reflexivity|].
  destruct (named fs v) eqn:Hv; simpl; rewrite IH; [reflexivity|].
  unfold parsedValue. rewrite (named_In fs f v Hin Hv). reflexivity.
Qed.

Lemma sampleLog_dropUnmatched fs f r :
  In f fs ->
  flat_map (sampleLog (Name f)) (DataResult (dropUnmatched fs r))
  = flat_map (sampleLog (Name f)) (DataResult r).
Proof.
  intros Hin. unfold dropUnmatched. simpl.
  induction (DataResult r) as [|v vs IH]; simpl; [reflexivity|].
  destruct (named fs v) eqn:Hv; simpl; rewrite IH; [reflexivity|].
  unfold sampleLog. rewrite (named_In fs f v Hin Hv). reflexivity.
Qed.

Lemma flat_map_ext_In {A B : Type} (h k : A -> list B) (l : list A) :
  (forall x, In x l -> h x = k x) -> flat_map h l = flat_map k l.
Proof.
  induction l as [|x l IH]; simpl; intros Hl; [reflexivity|].
  rewrite (Hl x) by (left; reflexivity). rewrite IH; [reflexivity|].
  intros y Hy. apply Hl. right. exact Hy.
Qed.

(** X2. A sample labelled with the name of no record of the slice adds to no
    field and sends nothing to the log: [mixIn] leaves the slice and the log
    it leaves when these samples are taken out of the four responses. *)
Theorem mixIn_ignores_unmatched fs a b c d lines :
  exists st1 st2,
    mixIn (mkStore (Some fs) a b c d lines) = Done st1
    /\ mixIn (mkStore (Some fs) (dropUnmatched fs a) (dropUnmatched fs b)
                      (dropUnmatched fs c) (dropUnmatched fs d) lines) = Done st2
    /\ functions st1 = functions st2
    /\ logged st1 = logged st2.
Proof.
  eexists. eexists. split; [apply mixIn_mkStore|]. split; [apply mixIn_mkStore|].
  simpl. split.
  - f_equal. apply map_ext_in. intros f Hin. unfold enriched.
    rewrite !(parsedValues_dropUnmatched fs f) by exact Hin. reflexivity.
  - f_equal. unfold mixLog. apply flat_map_ext_In. intros f Hin. unfold enrichLog.
    rewrite !(sampleLog_dropUnmatched fs f) by exact Hin. reflexivity.
Qed.

Lemma parsedValues_no_label name vs :
  (forall v, In v vs -> FunctionName (SampleMetric v) <> name) ->
  parsedValues name vs = [].
Proof.
  unfold parsedValues. induction vs as [|v vs IH]; simpl; intros Hvs; [reflexivity|].
  rewrite IH by (intros u Hu; apply Hvs; right; exact Hu).
  unfold parsedValue.
  destruct (String.eqb_spec (FunctionName (SampleMetric v)) name) as [Heq|_];
    [|reflexivity].
  exfalso. apply (Hvs v); [left; reflexivity | exact Heq].
Qed.

(** X3. A record whose name labels no sample of a response is left with 0 in the
    field of that response, whatever the field held. *)
Theorem mixIn_unlabelled_zero fs a b c d lines (i : nat) f :
  fs !! i = Some f ->
  exists st' fs' f',
    mixIn (mkStore (Some fs) a b c d lines) = Done st'
    /\ functions st' = Some fs' /\ fs' !! i = Some f'
    /\ ((forall v, In v (DataResult a) -> FunctionName (SampleMetric v) <> Name f) ->
        InvocationCount f' = 0%float)
    /\ ((forall v, In v (DataResult b) -> FunctionName (SampleMetric v) <> Name f) ->
        InvocationCount2XX f' = 0%float)
    /\ ((forall v, In v (DataResult c) -> FunctionName (SampleMetric v) <> Name f) ->
        InvocationCountNon2XX f' = 0%float)
    /\ ((forall v, In v (DataResult d) -> FunctionName (SampleMetric v) <> Name f) ->
        AverageResponseTime f' = 0%float).
Proof.
  intros Hi.
  destruct (mixIn_lookup fs a b c d lines i f Hi) as (st' & fs' & Hrun & Hfs & Hlk).
  exists st', fs', (enriched a b c d f).
  repeat (split; [assumption|]).
  repeat split; intros Hno; simpl; rewrite (parsedValues_no_label _ _ Hno); reflexivity.
Qed.

(** X4. Every record is merged on its own: the slice [mixIn] leaves for
    [fs1 ++ fs2] is the one it leaves for [fs1] followed by the one it leaves
    for [fs2], and the log is the log of the two calls in turn. *)
Theorem mixIn_app fs1 fs2 a b c d lines :
  exists st st1 st2 l1 l2,
    mixIn (mkStore (Some (fs1 ++ fs2)) a b c d lines) = Done st
    /\ mixIn (mkStore (Some fs1) a b c d lines) = Done st1
    /\ mixIn (mkStore (Some fs2) a b c d (logged st1)) = Done st2
    /\ functions st1 = Some l1 /\ functions st2 = Some l2
    /\ functions st = Some (l1 ++ l2)
    /\ logged st = logged st2.
Proof.
  eexists. eexists. eexists. eexists. eexists.
  split; [apply mixIn_mkStore|]. split; [apply mixIn_mkStore|].
  split; [apply mixIn_mkStore|]. split; [reflexivity|]. split; [reflexivity|].
  simpl. split.
  - rewrite map_app. reflexivity.
  - unfold mixLog. rewrite flat_map_app, app_assoc. reflexivity.
Qed.

Lemma enriched_ext a b c d f g :
  Name f = Name g -> rest f = rest g -> enriched a b c d f = enriched a b c d g.
Proof. intros Hn Hr. unfold enriched. rewrite Hn, Hr. reflexivity. Qed.

Lemma enrichLog_ext a b c d f g :
  Name f = Name g -> enrichLog a b c d f = enrichLog a b c d g.
Proof. intros Hn. unfold enrichLog. rewrite Hn. reflexivity. Qed.

(** X5. What the four fields held before the call is of no account: two slices
    with the same names and the same other fields, position by position, are
    left equal, and the same lines are logged. *)
Theorem mixIn_ignores_prior fs1 fs2 a b c d lines :
  map Name fs1 = map Name fs2 -> map rest fs1 = map rest fs2 ->
  exists st1 st2,
    mixIn (mkStore (Some fs1) a b c d lines) = Done st1
    /\ mixIn (mkStore (Some fs2) a b c d lines) = Done st2
    /\ functions st1 = functions st2
    /\ logged st1 = logged st2.
Proof.
  intros Hn Hr. eexists. eexists.
  split; [apply mixIn_mkStore|]. split; [apply mixIn_mkStore|]. simpl.
  assert (Hboth : map (enriched a b c d) fs1 = map (enriched a b c d) fs2
                  /\ mixLog a b c d fs1 = mixLog a b c d fs2).
  { revert fs2 Hn Hr. induction fs1 as [|f fs1 IH]; intros [|g fs2] Hn Hr;
      try discriminate; [split; reflexivity|].
    simpl in Hn, Hr. injection Hn as Hn1 Hn2. injection Hr as Hr1 Hr2.
    destruct (IH fs2 Hn2 Hr2) as [IHm IHl]. unfold mixLog in *. simpl.
    rewrite IHm, IHl, (enriched_ext a b c d f g Hn1 Hr1),
      (enrichLog_ext a b c d f g Hn1). split; reflexivity. }
  destruct Hboth as [-> ->]. split; reflexivity.
Qed.

(** X6. Two records of one name are left with the same four metrics. *)
Theorem mixIn_same_name fs a b c d lines (i j : nat) f g :
  fs !! i = Some f -> fs !! j = Some g -> Name f = Name g ->
  exists st' fs' f' g',
    mixIn (mkStore (Some fs) a b c d lines) = Done st'
    /\ functions st' = Some fs' /\ fs' !! i = Some f' /\ fs' !! j = Some g'
    /\ InvocationCount f' = InvocationCount g'
    /\ InvocationCount2XX f' = InvocationCount2XX g'
    /\ InvocationCountNon2XX f' = InvocationCountNon2XX g'
    /\ AverageResponseTime f' = AverageResponseTime g'.
Proof.
  intros Hi Hj Hn. eexists. eexists.
  exists (enriched a b c d f), (enriched a b c d g).
  split; [apply mixIn_mkStore|]. split; [reflexivity|].
  split; [rewrite list_lookup_fmap, Hi; reflexivity|].
  split; [rewrite list_lookup_fmap, Hj; reflexivity|].
  simpl. rewrite Hn. repeat split.
Qed.

Lemma sampleLog_form name v :
  Forall (fun l => exists e, l = parseLogLine e) (sampleLog name v)
  /\ (parses v = true -> sampleLog name v = []).
Proof.
  unfold sampleLog, parses. destruct (String.eqb _ name);
    [|split; [constructor | reflexivity]].
  destruct (snd (Value v)) as [| |x|s| |]; simpl;
    try (split; [constructor | reflexivity]).
  destruct (ParseFloat s) as [x [e|]]; simpl.
  - split; [|discriminate]. constructor; [exists e; reflexivity | constructor].
  - split; [constructor | reflexivity].
Qed.

Lemma flat_map_sampleLog_form name vs :
  Forall (fun l => exists e, l = parseLogLine e) (flat_map (sampleLog name) vs)
  /\ ((forall v, In v vs -> parses v = true) -> flat_map (sampleLog name) vs = []).
Proof.
  induction vs as [|v vs [IHf IHe]]; simpl; [split; [constructor | reflexivity]|].
  destruct (sampleLog_form name v) as [Hf He]. split.
  - apply Forall_app. split; assumption.
  - intros Hall. rewrite He by (apply Hall; left; reflexivity).
    apply IHe. intros u Hu. apply Hall. right. exact Hu.
Qed.

(** X7. [mixIn] keeps the log it finds and adds to it lines of the parser alone;
    it adds none when every sample of the four responses parses. *)
Theorem mixIn_log fs a b c d lines :
  exists st' new,
    mixIn (mkStore (Some fs) a b c d lines) = Done st'
    /\ logged st' = lines ++ new
    /\ Forall (fun l => exists e, l = parseLogLine e) new
    /\ ((forall r v, In r [a; b; c; d] -> In v (DataResult r) -> parses v = true) ->
        new = []).
Proof.
  eexists. exists (mixLog a b c d fs). split; [apply mixIn_mkStore|].
  split; [reflexivity|]. unfold mixLog, enrichLog.
  induction fs as [|f fs [IHf IHe]]; simpl; [split; [constructor | reflexivity]|].
  destruct (flat_map_sampleLog_form (Name f) (DataResult a)) as [Fa Ea].
  destruct (flat_map_sampleLog_form (Name f) (DataResult b)) as [Fb Eb].
  destruct (flat_map_sampleLog_form (Name f) (DataResult c)) as [Fc Ec].
  destruct (flat_map_sampleLog_form (Name f) (DataResult d)) as [Fd Ed].
  split.
  - repeat (apply Forall_app; split); assumption.
  - intros Hall.
    rewrite Ea by (intros v Hv; apply (Hall a v); [simpl; tauto | exact Hv]).
    rewrite Eb by (intros v Hv; apply (Hall b v); [simpl; tauto | exact Hv]).
    rewrite Ec by (intros v Hv; apply (Hall c v); [simpl; tauto | exact Hv]).
    rewrite Ed by (intros v Hv; apply (Hall d v); [simpl; tauto | exact Hv]).
    rewrite IHe by exact Hall. reflexivity.
Qed.

Lemma sampleKey_eq name vs1 : forall vs2,
  map sampleKey vs1 = map sampleKey vs2 ->
  parsedValues name vs1 = parsedValues name vs2
  /\ flat_map (sampleLog name) vs1 = flat_map (sampleLog name) vs2.
Proof.
  unfold parsedValues.
  induction vs1 as [|v1 vs1 IH]; intros [|v2 vs2] Hk; try discriminate;
    [split; reflexivity|].
  simpl in Hk. injection Hk as Hn Hv Hk. destruct (IH vs2 Hk) as [IHp IHl].
  simpl. rewrite IHp, IHl. unfold parsedValue, sampleLog. rewrite Hn, Hv.
  split; reflexivity.
Qed.

(** X8. [mixIn] reads the function name and the second component of the value of
    a sample, and nothing else of it: responses whose samples agree on these
    two, one by one, leave the same slice and the same log. *)
Theorem mixIn_reads_name_and_value fs a b c d a' b' c' d' lines :
  map sampleKey (DataResult a) = map sampleKey (DataResult a') ->
  map sampleKey (DataResult b) = map sampleKey (DataResult b') ->
  map sampleKey (DataResult c) = map sampleKey (DataResult c') ->
  map sampleKey (DataResult d) = map sampleKey (DataResult d') ->
  exists st1 st2,
    mixIn (mkStore (Some fs) a b c d lines) = Done st1
    /\ mixIn (mkStore (Some fs) a' b' c' d' lines) = Done st2
    /\ functions st1 = functions st2
    /\ logged st1 = logged st2.
Proof.
  intros Ha Hb Hc Hd. eexists. eexists.
  split; [apply mixIn_mkStore|]. split; [apply mixIn_mkStore|]. simpl.
  split.
  - f_equal. apply map_ext. intros f. unfold enriched.
    rewrite (proj1 (sampleKey_eq (Name f) _ _ Ha)), (proj1 (sampleKey_eq (Name f) _ _ Hb)),
      (proj1 (sampleKey_eq (Name f) _ _ Hc)), (proj1 (sampleKey_eq (Name f) _ _ Hd)).
    reflexivity.
  - f_equal. unfold mixLog. apply flat_map_ext. intros f. unfold enrichLog.
    rewrite (proj2 (sampleKey_eq (Name f) _ _ Ha)), (proj2 (sampleKey_eq (Name f) _ _ Hb)),
      (proj2 (sampleKey_eq (Name f) _ _ Hc)), (proj2 (sampleKey_eq (Name f) _ _ Hd)).
    reflexivity.
Qed.

End MergeFurther.

(** ** Further properties of the decorator *)

Section HandlerFurther.
Context {Other Request : Type}.
Context `{Strconv} `{NetURL} `{EncodingJSON Other}.
Context {prometheusQuery : PrometheusQueryFetcher}.

(** X9. When the wrapped handler answers 200 with a body that does not parse as
    a function list, the decorator sends status 500 with Content-Type
    text/plain and a fixed text; the error of the parse goes to the log and
    not to the client, and [Fetch] is not called. *)
Theorem unmarshal_error_is_500 (handler : HandlerFunc) (r : Request) (b : Backend)
  (fs : list (Function Other)) (e : error) :
  Code (handler NewRecorder r) = StatusOK ->
  Unmarshal (RecorderBody (handler NewRecorder r)) = (fs, Some e) ->
  exists W',
    AddMetricsHandler handler (freshWorld b) r = Done W'
    /\ status (w W') = Some 500%Z
    /\ header (w W') !! "Content-Type" = Some "text/plain"
    /\ written (w W') = "Error parsing metrics from upstream provider/backend."
    /\ logOut W' = [("Metrics upstream error: " ++ e)%string]
    /\ fetched W' = []
    /\ backend W' = b.
Proof.
  intros Hcode Hbody. unfold AddMetricsHandler. simpl.
  rewrite Hcode. simpl. unfold ReadAll. rewrite Hbody. simpl.
  eexists. split; [reflexivity|]. simpl. repeat split.
Qed.


(** The four calls of [Fetch], all answered. *)
Ltac fetch_all b e1 r1 b1 e2 r2 b2 e3 r3 b3 e4 r4 b4 fail_case :=
  unfold fetch; simpl;
  destruct (Fetch (QueryEscape invocationTotalQuery) b) as [[e1|r1] b1];
    [fail_case|]; simpl;
  destruct (Fetch (QueryEscape invocation2XXQuery) b1) as [[e2|r2] b2];
    [fail_case|]; simpl;
  destruct (Fetch (QueryEscape invocationNon2XXQuery) b2) as [[e3|r3] b3];
    [fail_case|]; simpl;
  destruct (Fetch (QueryEscape averageResponseTimeQuery) b3) as [[e4|r4] b4];
    [fail_case|]; simpl.

(** A call of [Fetch] answered with an error, against the fact that none was. *)
Ltac fetch_failed :=
  eexists; split; [reflexivity|]; simpl;
  let Hno := fresh "Hno" in
  intros Hno; exfalso;
  repeat match goal with
  | e : error |- _ => eapply (Hno _ e); simpl; tauto
  end.

(** X11. When the wrapped handler answers 200 with a function list and the four
    calls of [Fetch] are answered, the decorator merges the four answers into
    the list with [mixIn] and, when [Marshal] takes the merged list, sends
    its bytes with status 200 and Content-Type application/json. *)
Theorem all_fetched_sends_merged (handler : HandlerFunc) (r : Request) (b : Backend)
  (fs : list (Function Other)) :
  Code (handler NewRecorder r) = StatusOK ->
  Unmarshal (RecorderBody (handler NewRecorder r)) = (fs, None) ->
  exists W',
    AddMetricsHandler handler (freshWorld b) r = Done W'
    /\ ((forall expr e, ~ In (expr, inl e) (fetched W')) ->
        exists r1 r2 r3 r4 st' fs',
          map fst (fetched W') = queries
          /\ map snd (fetched W') = [inr r1; inr r2; inr r3; inr r4]
          /\ mixIn (mkStore (Some fs) r1 r2 r3 r4 []) = Done st'
          /\ functions st' = Some fs'
          /\ forall bytesOut, Marshal fs' = (bytesOut, None) ->
               status (w W') = Some 200%Z
               /\ header (w W') !! "Content-Type" = Some "application/json"
               /\ written (w W') = bytesOut
               /\ logOut W' = logged st').
Proof.
  intros Hcode Hbody. unfold AddMetricsHandler. simpl.
  rewrite Hcode. simpl. unfold ReadAll. rewrite Hbody.
  fetch_all b e1 r1 b1 e2 r2 b2 e3 r3 b3 e4 r4 b4 fetch_failed.
  rewrite mixIn_mkStore. simpl.
  destruct (Marshal (map (enriched r1 r2 r3 r4) fs)) as [bytes [e|]] eqn:HM;
    (eexists; split; [reflexivity|]); intros _;
    exists r1, r2, r3, r4; eexists; eexists;
    (split; [reflexivity|]); (split; [reflexivity|]);
    (split; [apply mixIn_mkStore|]); (split; [reflexivity|]);
    intros bytesOut HOut; rewrite HM in HOut; [discriminate HOut|].
  injection HOut as <-. simpl. repeat split.
Qed.

(** X12. In the same case, when [Marshal] refuses the merged list the decorator
    sends nothing, no status, no header and no body, and logs the error
    after the lines of the merge. *)
Theorem marshal_error_sends_nothing (handler : HandlerFunc) (r : Request)
  (b : Backend) (fs : list (Function Other)) :
  Code (handler NewRecorder r) = StatusOK ->
  Unmarshal (RecorderBody (handler NewRecorder r)) = (fs, None) ->
  exists W',
    AddMetricsHandler handler (freshWorld b) r = Done W'
    /\ ((forall expr e, ~ In (expr, inl e) (fetched W')) ->
        exists r1 r2 r3 r4 st' fs',
          map snd (fetched W') = [inr r1; inr r2; inr r3; inr r4]
          /\ mixIn (mkStore (Some fs) r1 r2 r3 r4 []) = Done st'
          /\ functions st' = Some fs'
          /\ forall bytesOut e, Marshal fs' = (bytesOut, Some e) ->
               w W' = NewResponseWriter
               /\ logOut W' = logged st' ++ [e]).
Proof.
  intros Hcode Hbody. unfold AddMetricsHandler. simpl.
  rewrite Hcode. simpl. unfold ReadAll. rewrite Hbody.
  fetch_all b e1 r1 b1 e2 r2 b2 e3 r3 b3 e4 r4 b4 fetch_failed.
  rewrite mixIn_mkStore. simpl.
  destruct (Marshal (map (enriched r1 r2 r3 r4) fs)) as [bytes [e|]] eqn:HM;
    (eexists; split; [reflexivity|]); intros _;
    exists r1, r2, r3, r4; eexists; eexists;
    (split; [reflexivity|]);
    (split; [apply mixIn_mkStore|]); (split; [reflexivity|]);
    intros bytesOut e' HOut; rewrite HM in HOut; [|discriminate HOut].
  injection HOut as <- <-. simpl. split; reflexivity.
Qed.

(** X13. When a call of [Fetch] is answered with an error the decorator logs that
    error, and nothing else: the merge is not run. *)
Theorem fetch_error_is_logged (handler : HandlerFunc) (r : Request) (b : Backend)
  (fs : list (Function Other)) :
  Code (handler NewRecorder r) = StatusOK ->
  Unmarshal (RecorderBody (handler NewRecorder r)) = (fs, None) ->
  exists W',
    AddMetricsHandler handler (freshWorld b) r = Done W'
    /\ forall expr e, In (expr, inl e) (fetched W') ->
         logOut W' = [("Error querying Prometheus API: " ++ e)%string].
Proof.
  intros Hcode Hbody. unfold AddMetricsHandler. simpl.
  rewrite Hcode. simpl. unfold ReadAll. rewrite Hbody.
  fetch_all b e1 r1 b1 e2 r2 b2 e3 r3 b3 e4 r4 b4
    ltac:(eexists; split; [reflexivity|]; simpl; intros expr e Hin;
          repeat (destruct Hin as [Hin|Hin]; [try discriminate Hin|]);
          [injection Hin as _ <-; reflexivity | destruct Hin]).
  rewrite mixIn_mkStore. simpl.
  destruct (Marshal (map (enriched r1 r2 r3 r4) fs)) as [bytes [e|]];
    (eexists; split; [reflexivity|]); simpl; intros expr e' Hin;
    repeat (destruct Hin as [Hin|Hin]; [discriminate Hin|]); destruct Hin.
Qed.


(** X15. [writeResponse] on a writer that has sent no status: the status is 200,
    Content-Type is application/json whatever it was, the other header
    fields stay, and the body is added to what was written. *)
Theorem writeResponse_sends (body : string) (W : World) :
  status (w W) = None ->
  status (w (writeResponse body W)) = Some 200%Z
  /\ header (w (writeResponse body W)) !! "Content-Type" = Some "application/json"
  /\ (forall key, key <> "Content-Type" ->
      header (w (writeResponse body W)) !! key = header (w W) !! key)
  /\ written (w (writeResponse body W)) = (written (w W) ++ body)%string
  /\ logOut (writeResponse body W) = logOut W
  /\ fetched (writeResponse body W) = fetched W
  /\ backend (writeResponse body W) = backend W.
Proof.
  intros Hst. unfold writeResponse, onWriter, Write, WriteHeader, HeaderSet. simpl.
  rewrite Hst. simpl. repeat split.
  - apply lookup_insert_eq.
  - intros key Hkey. apply lookup_insert_ne. congruence.
Qed.

End HandlerFurther.

(** ** Instances of the further theorems *)

Lemma mixIn_unlabelled_zero_witness :
  exists st' fs' f',
    @mixIn unit decimalStrconv
      (mkStore (Some [fn1Stale])
         (response [sample "fn2" (AnyString "3")]) (response [])
         (response []) (response [sample "fn1" (AnyString "0.25")]) []) = Done st'
    /\ functions st' = Some fs' /\ fs' !! 0 = Some f'
    /\ InvocationCount f' = 0%float
    /\ InvocationCount2XX f' = 0%float.
Proof.
  destruct (@mixIn_unlabelled_zero unit decimalStrconv [fn1Stale]
              (response [sample "fn2" (AnyString "3")]) (response [])
              (response []) (response [sample "fn1" (AnyString "0.25")]) []
              0 fn1Stale eq_refl)
    as (st' & fs' & f' & Hrun & Hfs & Hlk & Ha & Hb & _).
  exists st', fs', f'. repeat (split; [assumption|]). split.
  - apply Ha. simpl. intros v [<-|[]]. simpl. discriminate.
  - apply Hb. simpl. intros v [].
Defined.

Lemma mixIn_ignores_prior_witness :
  map Name [fn1Stale] = map Name [fn1]
  /\ map rest [fn1Stale] = map rest [fn1]
  /\ exists st1 st2,
       @mixIn unit decimalStrconv
         (mkStore (Some [fn1Stale]) (response [sample "fn1" (AnyString "10")])
                  (response []) (response []) (response []) []) = Done st1
       /\ @mixIn unit decimalStrconv
            (mkStore (Some [fn1]) (response [sample "fn1" (AnyString "10")])
                     (response []) (response []) (response []) []) = Done st2
       /\ functions st1 = functions st2
       /\ logged st1 = logged st2.
Proof.
  split; [reflexivity|]. split; [reflexivity|].
  exact (@mixIn_ignores_prior unit decimalStrconv [fn1Stale] [fn1]
           (response [sample "fn1" (AnyString "10")])
           (response []) (response []) (response []) [] eq_refl eq_refl).
Defined.

Lemma mixIn_same_name_witness :
  exists st' fs' f' g',
    @mixIn unit decimalStrconv
      (mkStore (Some [fn1Stale; fn1]) (response [sample "fn1" (AnyString "10")])
               (response []) (response []) (response []) []) = Done st'
    /\ functions st' = Some fs' /\ fs' !! 0 = Some f' /\ fs' !! 1 = Some g'
    /\ InvocationCount f' = InvocationCount g'
    /\ InvocationCount2XX f' = InvocationCount2XX g'
    /\ InvocationCountNon2XX f' = InvocationCountNon2XX g'
    /\ AverageResponseTime f' = AverageResponseTime g'.
Proof.
  exact (@mixIn_same_name unit decimalStrconv [fn1Stale; fn1]
           (response [sample "fn1" (AnyString "10")])
           (response []) (response []) (response []) [] 0 1 fn1Stale fn1
           eq_refl eq_refl eq_refl).
Defined.

Lemma unmarshal_error_is_500_witness :
  Code (listing "not json" NewRecorder tt) = StatusOK
  /\ demoUnmarshal (RecorderBody (listing "not json" NewRecorder tt))
     = ([], Some "invalid character")
  /\ exists W' : @World downFetcher,
       @AddMetricsHandler unit unit decimalStrconv goNetURL demoJSON downFetcher
         (listing "not json") (@freshWorld downFetcher tt) tt = Done W'
       /\ status (w W') = Some 500%Z
       /\ header (w W') !! "Content-Type" = Some "text/plain"
       /\ written (w W') = "Error parsing metrics from upstream provider/backend."
       /\ logOut W' = ["Metrics upstream error: invalid character"]
       /\ fetched W' = []
       /\ backend W' = (tt : @Backend downFetcher).
Proof.
  split; [reflexivity|]. split; [reflexivity|].
  exact (@unmarshal_error_is_500 unit unit decimalStrconv goNetURL demoJSON
           downFetcher (listing "not json") tt tt [] "invalid character"
           eq_refl eq_refl).
Defined.

Lemma all_fetched_sends_merged_witness :
  exists W' : @World scriptedFetcher,
    @AddMetricsHandler unit unit decimalStrconv goNetURL demoJSON scriptedFetcher
      (listing fn1Body) (@freshWorld scriptedFetcher (fn1Answers "0.25")) tt = Done W'
    /\ (forall expr e, ~ In (expr, inl e) (fetched W'))
    /\ status (w W') = Some 200%Z
    /\ header (w W') !! "Content-Type" = Some "application/json"
    /\ written (w W') = fn1Body
    /\ logOut W' = [].
Proof.
  destruct (@all_fetched_sends_merged unit unit decimalStrconv goNetURL demoJSON
              scriptedFetcher (listing fn1Body) tt (fn1Answers "0.25") [fn1]
              eq_refl eq_refl) as (W' & Hrun & Hall).
  exists W'. split; [exact Hrun|].
  vm_compute in Hrun. injection Hrun as <-.
  match goal with |- ?P /\ _ => assert (Hno : P) end.
  { intros expr e Hin. simpl in Hin.
    repeat (destruct Hin as [Hin|Hin]; [discriminate Hin|]). destruct Hin. }
  split; [exact Hno|].
  destruct (Hall Hno) as (r1 & r2 & r3 & r4 & st' & fs' & _ & Ha & Hmix & Hfs & Hsend).
  simpl in Ha. injection Ha as <- <- <- <-.
  vm_compute in Hmix. injection Hmix as <-. simpl in Hfs. injection Hfs as <-.
  destruct (Hsend fn1Body eq_refl) as (Hs & Hh & Hw & Hl).
  repeat split; assumption.
Defined.

Lemma marshal_error_sends_nothing_witness :
  exists W' : @World scriptedFetcher,
    @AddMetricsHandler unit unit nanStrconv goNetURL strictJSON scriptedFetcher
      (listing fn1Body) (@freshWorld scriptedFetcher (fn1Answers "NaN")) tt = Done W'
    /\ (forall expr e, ~ In (expr, inl e) (fetched W'))
    /\ w W' = NewResponseWriter
    /\ logOut W' = ["json: unsupported value: NaN"].
Proof.
  destruct (@marshal_error_sends_nothing unit unit nanStrconv goNetURL strictJSON
              scriptedFetcher (listing fn1Body) tt (fn1Answers "NaN") [fn1]
              eq_refl eq_refl) as (W' & Hrun & Hall).
  exists W'. split; [exact Hrun|].
  vm_compute in Hrun. injection Hrun as <-.
  match goal with |- ?P /\ _ => assert (Hno : P) end.
  { intros expr e Hin. simpl in Hin.
    repeat (destruct Hin as [Hin|Hin]; [discriminate Hin|]). destruct Hin. }
  split; [exact Hno|].
  destruct (Hall Hno) as (r1 & r2 & r3 & r4 & st' & fs' & Ha & Hmix & Hfs & Hsend).
  simpl in Ha. injection Ha as <- <- <- <-.
  vm_compute in Hmix. injection Hmix as <-. simpl in Hfs. injection Hfs as <-.
  destruct (Hsend "" "json: unsupported value: NaN" eq_refl) as (Hw & Hl).
  split; assumption.
Defined.

Lemma fetch_error_is_logged_witness :
  exists W' : @World scriptedFetcher,
    @AddMetricsHandler unit unit decimalStrconv goNetURL demoJSON scriptedFetcher
      (listing fn1Body)
      (@freshWorld scriptedFetcher [inr (response []); inl "timeout"]) tt = Done W'
    /\ In (escapeQuery invocation2XXQuery, inl "timeout") (fetched W')
    /\ logOut W' = ["Error querying Prometheus API: timeout"].
Proof.
  destruct (@fetch_error_is_logged unit unit decimalStrconv goNetURL demoJSON
              scriptedFetcher (listing fn1Body) tt
              [inr (response []); inl "timeout"] [fn1] eq_refl eq_refl)
    as (W' & Hrun & Hlog).
  exists W'. split; [exact Hrun|].
  match goal with |- ?P /\ _ => assert (Hin : P) end.
  { vm_compute in Hrun. injection Hrun as <-. right. left. vm_compute. reflexivity. }
  split; [exact Hin|]. exact (Hlog _ _ Hin).
Defined.

Lemma writeResponse_sends_witness :
  status (w (@freshWorld downFetcher tt)) = None
  /\ status (w (writeResponse fn1Body (@freshWorld downFetcher tt))) = Some 200%Z
  /\ header (w (writeResponse fn1Body (@freshWorld downFetcher tt))) !! "Content-Type"
     = Some "application/json"
  /\ written (w (writeResponse fn1Body (@freshWorld downFetcher tt))) = fn1Body.
Proof.
  split; [reflexivity|].
  destruct (@writeResponse_sends downFetcher fn1Body (@freshWorld downFetcher tt)
              eq_refl) as (Hs & Hh & _ & Hw & _).
  repeat split; assumption.
Defined.

Lemma mixIn_reads_name_and_value_witness :
  exists st1 st2,
    @mixIn unit decimalStrconv
      (mkStore (Some [fn1])
         (response [mkSample (mkMetric "fn1" [("code", "200")])
                             (AnyFloat64 1%float, AnyString "10")])
         (response []) (response []) (response []) []) = Done st1
    /\ @mixIn unit decimalStrconv
         (mkStore (Some [fn1])
            (response [mkSample (mkMetric "fn1" [("code", "503")])
                                (AnyFloat64 2%float, AnyString "10")])
            (response []) (response []) (response []) []) = Done st2
    /\ functions st1 = functions st2
    /\ logged st1 = logged st2.
Proof.
  exact (@mixIn_reads_name_and_value unit decimalStrconv [fn1]
           (response [mkSample (mkMetric "fn1" [("code", "200")])
                               (AnyFloat64 1%float, AnyString "10")])
           (response []) (response []) (response [])
           (response [mkSample (mkMetric "fn1" [("code", "503")])
                               (AnyFloat64 2%float, AnyString "10")])
           (response []) (response []) (response []) []
           eq_refl eq_refl eq_refl eq_refl).
Defined.
